(** * A shallow embedding of [translatorBot.py]

    The bot is one Python module: a start-up sequence that reads the
    configuration from the environment, the relay [get_translation]
    (Google first, MyMemory as the fallback) and the event handler
    [on_message].

    Conventions of the embedding.
    - A Python [str] is a [string] whose characters are the code points
      0..255 (the Latin-1 block); [str.lower], [str.isalpha], [str.strip],
      [str.split] and [int] are written out as CPython computes them on that
      range.
    - [os.environ] is a [gmap string string], the allowlist a [gset Z].
    - Effects are explicit: a computation yields the list of actions it
      performed (prints, platform calls, provider calls, reply sends) and
      either a value or the exception that left it.  What the platform and
      the providers answer is read from a [World]. *)

From Stdlib Require Import ZArith NArith Ascii String List Bool Lia.
From stdpp Require Import base option list gmap strings.

Local Open Scope string_scope.
Local Open Scope Z_scope.

(** ** Python strings *)

Module PyStr.

Definition code (c : ascii) : N := N_of_ascii c.

Definition in_range (lo hi : N) (c : ascii) : bool :=
  ((lo <=? code c) && (code c <=? hi))%N.

(** [str.isspace] on one character: TAB..CR, FS..US, SPACE, NEL, NBSP. *)
Definition isspace_char (c : ascii) : bool :=
  in_range 9 13 c || in_range 28 32 c
  || (code c =? 133)%N || (code c =? 160)%N.

(** [str.isalpha] on one character (categories Lu, Ll, Lo of Latin-1). *)
Definition isalpha_char (c : ascii) : bool :=
  in_range 65 90 c || in_range 97 122 c
  || (code c =? 170)%N || (code c =? 181)%N || (code c =? 186)%N
  || in_range 192 214 c || in_range 216 246 c || in_range 248 255 c.

(** [str.lower] on one character: A-Z and the upper-case letters
    U+00C0..U+00DE (the sign U+00D7 apart) move up by 32. *)
Definition lower_char (c : ascii) : ascii :=
  if in_range 65 90 c || in_range 192 214 c || in_range 216 222 c
  then ascii_of_N (code c + 32) else c.

Fixpoint lower (s : string) : string :=
  match s with
  | EmptyString => EmptyString
  | String c s' => String (lower_char c) (lower s')
  end.

Fixpoint all_chars (p : ascii -> bool) (s : string) : bool :=
  match s with
  | EmptyString => true
  | String c s' => p c && all_chars p s'
  end.

(** [s.isalpha()]: at least one character, and all of them letters. *)
Definition isalpha (s : string) : bool :=
  match s with
  | EmptyString => false
  | _ => all_chars isalpha_char s
  end.

Fixpoint lstrip_by (p : ascii -> bool) (s : string) : string :=
  match s with
  | EmptyString => EmptyString
  | String c s' => if p c then lstrip_by p s' else s
  end.

Fixpoint rstrip_by (p : ascii -> bool) (s : string) : string :=
  match s with
  | EmptyString => EmptyString
  | String c s' =>
      match rstrip_by p s' with
      | EmptyString => if p c then EmptyString else String c EmptyString
      | r => String c r
      end
  end.

Definition strip_by (p : ascii -> bool) (s : string) : string :=
  rstrip_by p (lstrip_by p s).

(** [s.strip()] *)
Definition strip (s : string) : string := strip_by isspace_char s.

(** [s.startswith(prefix)] *)
Fixpoint startswith (s prefix : string) {struct prefix} : bool :=
  match prefix, s with
  | EmptyString, _ => true
  | String p prefix', String c s' => Ascii.eqb c p && startswith s' prefix'
  | String _ _, EmptyString => false
  end.

Definition cons_head (c : ascii) (l : list string) : list string :=
  match l with
  | h :: t => String c h :: t
  | [] => [String c EmptyString]
  end.

(** [s.split(sep)] for a one-character separator. *)
Fixpoint split (sep : ascii) (s : string) : list string :=
  match s with
  | EmptyString => [EmptyString]
  | String c s' =>
      if Ascii.eqb c sep then EmptyString :: split sep s'
      else cons_head c (split sep s')
  end.

(** [s.split(sep, 1)]: cut at the first separator only. *)
Fixpoint split1 (sep : ascii) (s : string) : list string :=
  match s with
  | EmptyString => [EmptyString]
  | String c s' =>
      if Ascii.eqb c sep then [EmptyString; s']
      else cons_head c (split1 sep s')
  end.

(** *** [int(s)]

    Base ten: surrounding whitespace, an optional sign, then digits with
    single underscores allowed between digits.  The whitespace [int]
    skips is C's [isspace] set plus, in a non-ASCII string, the Unicode
    spaces; FS..US are not skipped.  A text with more digit characters
    than [int_max_str_digits] (leading zeros count, underscores and the
    sign do not) raises [ValueError] like any malformed text. *)

(** [sys.int_info.default_max_str_digits], the limit in force unless the
    interpreter is started with another one. *)
Definition int_max_str_digits : N := 4300.

Definition int_space_char (c : ascii) : bool :=
  in_range 9 13 c || (code c =? 32)%N
  || (code c =? 133)%N || (code c =? 160)%N.

Definition digit_val (c : ascii) : option Z :=
  if in_range 48 57 c then Some (Z.of_N (code c) - 48) else None.

(** [digits] counts the digit characters read so far. *)
Fixpoint parse_digits (acc : Z) (digits : N) (after_digit : bool) (s : string)
  : option Z :=
  match s with
  | EmptyString =>
      if after_digit && (digits <=? int_max_str_digits)%N
      then Some acc else None
  | String c s' =>
      if Ascii.eqb c "_"
      then (if after_digit then parse_digits acc digits false s' else None)
      else match digit_val c with
           | Some d => parse_digits (10 * acc + d) (digits + 1)%N true s'
           | None => None
           end
  end.

Definition parse_signed (s : string) : option Z :=
  match s with
  | String "+" r => parse_digits 0 0 false r
  | String "-" r => Z.opp <$> parse_digits 0 0 false r
  | _ => parse_digits 0 0 false s
  end.

Definition int (s : string) : option Z :=
  parse_signed (strip_by int_space_char s).

End PyStr.

(** ** The platform's data *)

(** Exceptions that are instances of [Exception].  [discord.NotFound] and
    [discord.Forbidden] are the two the handler names; everything else
    ([discord.HTTPException], [AttributeError], ...) carries its text. *)
Inductive PyExc : Type :=
| NotFound
| Forbidden
| OtherException (detail : string).

Record User : Type := mkUser {
  user_id : Z;
  display_name : string;
  mention : string
}.

Record Guild : Type := mkGuild {
  guild_id : Z;
  guild_name : string
}.

Record MessageReference : Type := mkReference {
  message_id : option Z
}.

(** [message.guild] is [None] in a direct message. *)
Record Message : Type := mkMessage {
  author : User;
  guild : option Guild;
  content : string;
  reference : option MessageReference
}.

(** [a == b] on users compares the ids. *)
Definition user_eqb (a b : User) : bool := user_id a =? user_id b.

(** The texts [on_message] sends with [message.reply]. *)
Inductive Reply : Type :=
| Usage
    (* "Usage: `/translate <language_code>` when replying to a message." *)
| InvalidLanguageCode (target_lang : string)
    (* "Invalid language code: `{target_lang}`. Please use a 2-letter ISO 639-1 code." *)
| CouldNotRetrieve
    (* "Could not retrieve the original message you replied to. It might be too old or deleted." *)
| NoTextContent
    (* "The message you replied to has no text content to translate." *)
| Translation (author_mention target_lang translated_text : string)
    (* "Translation of {mention}'s message to `{target_lang.upper()}`:\n>>> {translated_text}" *)
| TranslationFailed (target_lang : string)
    (* "Sorry, I couldn't translate that message to `{target_lang}`. Both translation services failed or returned no result." *)
| CouldNotBeFound
    (* "The message you replied to could not be found." *)
| NoReadPermission
    (* "I don't have permissions to read the message you replied to." *)
| InternalError (e : PyExc)
    (* "An internal error occurred: {e}. Please try again later." *).

(** The lines written with [print]. *)
Inductive LogLine : Type :=
| DebugReceived (m : Message)
| IgnoringUnauthorized (g : Guild)
| Translating (text target_lang author_name server_name : string)
| AttemptGoogle (target_language : string)
| GoogleFailed (e : PyExc)
| AttemptMyMemory (target_language : string)
| MyMemoryFailed (e : PyExc)
| UnexpectedError (e : PyExc).

Inductive Action : Type :=
| Print (l : LogLine)
| FetchMessage (id : Z)
    (* message.channel.fetch_message(id) *)
| GoogleTranslate (text target : string)
    (* GoogleTranslator(source='auto', target=target).translate(text) *)
| MyMemoryTranslate (text target : string)
    (* MyMemoryTranslator(source='auto', target=target).translate(text) *)
| SendReply (r : Reply)
    (* message.reply(...) *).

(** ** Computations: a trace and a value or an exception *)

Inductive Outcome (A : Type) : Type :=
| Returned (a : A)
| Raised (e : PyExc).
Arguments Returned {A} a.
Arguments Raised {A} e.

Definition M (A : Type) : Type := (list Action * Outcome A)%type.

Definition trace {A} (m : M A) : list Action := fst m.
Definition outcome {A} (m : M A) : Outcome A := snd m.

Definition ret {A} (a : A) : M A := ([], Returned a).

Definition raise {A} (e : PyExc) : M A := ([], Raised e).

Definition emit (a : Action) : M unit := ([a], Returned tt).

Definition bind {A B} (m : M A) (k : A -> M B) : M B :=
  match m with
  | (t, Returned a) => let '(t', o) := k a in ((t ++ t')%list, o)
  | (t, Raised e) => (t, Raised e)
  end.

(** [try: m  except Exception as e: h e] *)
Definition try_except {A} (m : M A) (h : PyExc -> M A) : M A :=
  match m with
  | (t, Raised e) => let '(t', o) := h e in ((t ++ t')%list, o)
  | (t, Returned a) => (t, Returned a)
  end.

Declare Scope py_scope.
Delimit Scope py_scope with py.
Notation "x <- m ;; k" := (bind m (fun x => k))
  (at level 100, m at next level, right associativity) : py_scope.
Notation "m ;;; k" := (bind m (fun _ => k))
  (at level 100, right associativity) : py_scope.

(** What the world outside answers during one run of the handler. *)
Record World : Type := mkWorld {
  fetch_message : Z -> Outcome (option Message);
  google_translate : string -> string -> Outcome (option string);
  mymemory_translate : string -> string -> Outcome (option string);
  send_reply : Reply -> option PyExc      (* [None]: the send went through *)
}.

Definition lift {A} (o : Outcome A) : M A := ([], o).

Definition call_fetch_message (w : World) (id : Z) : M (option Message) :=
  (emit (FetchMessage id) ;;; lift (fetch_message w id))%py.

Definition call_google (w : World) (text target : string) : M (option string) :=
  (emit (GoogleTranslate text target) ;;; lift (google_translate w text target))%py.

Definition call_mymemory (w : World) (text target : string) : M (option string) :=
  (emit (MyMemoryTranslate text target) ;;; lift (mymemory_translate w text target))%py.

Definition reply (w : World) (r : Reply) : M unit :=
  (emit (SendReply r) ;;;
   match send_reply w r with
   | None => ret tt
   | Some e => raise e
   end)%py.

(** ** [get_translation] *)

Definition empty_notice : string := "The message to translate is empty.".

(** Truth value of what a provider hands back: [None] and [""] are falsy. *)
Definition truthy (v : option string) : option string :=
  match v with
  | Some EmptyString => None
  | Some s => Some s
  | None => None
  end.

(** [if translated_text: return translated_text] as the end of a [try]
    block: [Some s] when the block returns [s], [None] when control falls
    through to the statement after the [try]. *)
Definition google_block (w : World) (text target_language : string)
  : M (option string) :=
  try_except
    (emit (Print (AttemptGoogle target_language)) ;;;
     translated_text <- call_google w text target_language ;;
     ret (truthy translated_text))%py
    (fun e => emit (Print (GoogleFailed e)) ;;; ret None)%py.

Definition mymemory_block (w : World) (text target_language : string)
  : M (option string) :=
  try_except
    (emit (Print (AttemptMyMemory target_language)) ;;;
     translated_text <- call_mymemory w text target_language ;;
     ret (truthy translated_text))%py
    (fun e => emit (Print (MyMemoryFailed e)) ;;; ret None)%py.

Definition get_translation (w : World) (text target_language : string)
  : M (option string) :=
  match text with
  | EmptyString => ret (Some empty_notice)
  | _ =>
      (r <- google_block w text target_language ;;
       match r with
       | Some translated_text => ret (Some translated_text)
       | None =>
           r' <- mymemory_block w text target_language ;;
           match r' with
           | Some translated_text => ret (Some translated_text)
           | None => ret None
           end
       end)%py
  end.

(** ** [on_message] *)

(** What the handler reads from module scope. *)
Record Bot : Type := mkBot {
  WHITELISTED_SERVER_IDS : gset Z;
  client_user : User
}.

Definition command_prefix : string := "/translate".

(** [message.reference and message.reference.message_id]: the id when the
    condition is true (a reference is there and its id is neither [None]
    nor 0). *)
Definition referenced_id (message : Message) : option Z :=
  match reference message with
  | Some r =>
      match message_id r with
      | Some id => if id =? 0 then None else Some id
      | None => None
      end
  | None => None
  end.

(** [len(target_lang) != 2 or not target_lang.isalpha()] *)
Definition invalid_code (target_lang : string) : bool :=
  negb (String.length target_lang =? 2)%nat || negb (PyStr.isalpha target_lang).

(** [message.guild.name], an [AttributeError] when [message.guild] is [None]. *)
Definition guild_name_of (message : Message) : M string :=
  match guild message with
  | Some g => ret (guild_name g)
  | None => raise (OtherException "'NoneType' object has no attribute 'name'")
  end.

(** The body of the [try] block. *)
Definition fetch_and_translate (w : World) (message : Message)
    (id : Z) (target_lang : string) : M unit :=
  (referenced_message <- call_fetch_message w id ;;
   match referenced_message with
   | None => reply w CouldNotRetrieve
   | Some original =>
       let text_to_translate := content original in
       match text_to_translate with
       | EmptyString => reply w NoTextContent
       | _ =>
           server_name <- guild_name_of message ;;
           emit (Print (Translating text_to_translate target_lang
                          (display_name (author message)) server_name)) ;;;
           translated_text <- get_translation w text_to_translate target_lang ;;
           match truthy translated_text with
           | Some t => reply w (Translation (mention (author original)) target_lang t)
           | None => reply w (TranslationFailed target_lang)
           end
       end
   end)%py.

(** The three [except] clauses, in their order. *)
Definition on_error (w : World) (e : PyExc) : M unit :=
  match e with
  | NotFound => reply w CouldNotBeFound
  | Forbidden => reply w NoReadPermission
  | _ => (emit (Print (UnexpectedError e)) ;;; reply w (InternalError e))%py
  end.

(** From "Check for Reply Command" to the end of the handler. *)
Definition reply_command (w : World) (message : Message) : M unit :=
  match referenced_id message with
  | Some id =>
      if PyStr.startswith (PyStr.lower (content message)) command_prefix then
        let parts := PyStr.split1 " " (PyStr.lower (content message)) in
        if (length parts <? 2)%nat then reply w Usage
        else
          let target_lang := PyStr.strip (nth 1 parts EmptyString) in
          if invalid_code target_lang
          then reply w (InvalidLanguageCode target_lang)
          else try_except (fetch_and_translate w message id target_lang)
                          (on_error w)
      else ret tt
  | None => ret tt
  end.

Definition on_message (w : World) (bot : Bot) (message : Message) : M unit :=
  (emit (Print (DebugReceived message)) ;;;
   if user_eqb (author message) (client_user bot) then ret tt
   else
     match guild message with
     | Some g =>
         if bool_decide (guild_id g ∉ WHITELISTED_SERVER_IDS bot)
         then emit (Print (IgnoringUnauthorized g))
         else reply_command w message
     | None => reply_command w message
     end)%py.

(** ** Start-up *)

Inductive StartupAction : Type :=
| PrintLine (line : string)
| Exit                        (* exit() *)
| CreateClient                (* discord.Client(intents=intents) *)
| RunClient (TOKEN : string)  (* client.run(TOKEN), which connects *).

Inductive ConfigError : Type :=
| WhitelistMalformed
| WhitelistMissing
| TokenMissing.

Definition error_lines (err : ConfigError) : list string :=
  match err with
  | WhitelistMalformed =>
      ["ERROR: WHITELISTED_SERVER_IDS in .env file must be a comma-separated list of numbers."]
  | WhitelistMissing =>
      ["ERROR: WHITELISTED_SERVER_IDS not found in .env file.";
       "Please set WHITELISTED_SERVER_IDS=YOUR_SERVER_ID_1,YOUR_SERVER_ID_2,..."]
  | TokenMissing =>
      ["ERROR: DISCORD_TOKEN not found in .env file.";
       "Please ensure DISCORD_TOKEN=YOUR_BOT_TOKEN_HERE is correctly set."]
  end.

Definition fail_with (err : ConfigError) : list StartupAction :=
  map PrintLine (error_lines err) ++ [Exit].

(** [{int(s.strip()) for s in whitelisted_servers_str.split(',')}];
    [None] when an [int] raises [ValueError]. *)
Definition parse_whitelist (whitelisted_servers_str : string) : option (gset Z) :=
  list_to_set <$>
    mapM (fun s => PyStr.int (PyStr.strip s)) (PyStr.split "," whitelisted_servers_str).

(** The module's top level, from [os.getenv] to [client.run]; [environ] is
    the environment after [load_dotenv()]. *)
Definition startup (environ : gmap string string) : list StartupAction :=
  let TOKEN := environ !! "DISCORD_TOKEN" in
  let whitelisted_servers_str := environ !! "WHITELISTED_SERVER_IDS" in
  match whitelisted_servers_str with
  | None | Some EmptyString => fail_with WhitelistMissing
  | Some str =>
      match parse_whitelist str with
      | None => fail_with WhitelistMalformed
      | Some ids =>
          match TOKEN with
          | None => fail_with TokenMissing
          | Some token => [CreateClient; RunClient token]
          end
      end
  end.

(** The allowlist the handler sees once start-up got through. *)
Definition loaded_whitelist (environ : gmap string string) : option (gset Z) :=
  match environ !! "WHITELISTED_SERVER_IDS" with
  | None | Some EmptyString => None
  | Some str => parse_whitelist str
  end.

(** ** Reading traces *)

(** The first reply a trace sends, if it sends one. *)
Fixpoint first_reply (t : list Action) : option Reply :=
  match t with
  | [] => None
  | SendReply r :: _ => Some r
  | _ :: t' => first_reply t'
  end.

Definition is_print (a : Action) : bool :=
  match a with Print _ => true | _ => false end.

Definition is_provider_call (a : Action) : bool :=
  match a with
  | GoogleTranslate _ _ | MyMemoryTranslate _ _ => true
  | _ => false
  end.

(** The provider calls of a trace, in their order. *)
Definition provider_calls (t : list Action) : list Action :=
  List.filter is_provider_call t.

(** What a provider call is worth to the relay: the text when the call
    returned a non-empty one, nothing when it raised or returned a falsy
    value. *)
Definition usable (o : Outcome (option string)) : option string :=
  match o with
  | Returned v => truthy v
  | Raised _ => None
  end.

(** The event got past the self-authorship and the guild filter. *)
Definition not_filtered (bot : Bot) (message : Message) : Prop :=
  user_eqb (author message) (client_user bot) = false /\
  match guild message with
  | Some g => guild_id g ∈ WHITELISTED_SERVER_IDS bot
  | None => True
  end.

(** The handler from the [try] statement on. *)
Definition try_block (w : World) (message : Message) (id : Z)
    (target_lang : string) : M unit :=
  try_except (fetch_and_translate w message id target_lang) (on_error w).

(** A command that passed the argument parse and the code validation. *)
Definition valid_command (bot : Bot) (message : Message) (id : Z)
    (target_lang : string) : Prop :=
  not_filtered bot message /\
  referenced_id message = Some id /\
  PyStr.startswith (PyStr.lower (content message)) command_prefix = true /\
  (exists first second,
      PyStr.split1 " " (PyStr.lower (content message)) = [first; second] /\
      PyStr.strip second = target_lang) /\
  invalid_code target_lang = false.

Definition no_space (s : string) : bool :=
  PyStr.all_chars (fun c => negb (Ascii.eqb c " ")) s.


(** The replies a trace sends, in their order. *)
Fixpoint replies (t : list Action) : list Reply :=
  match t with
  | [] => []
  | SendReply r :: t' => r :: replies t'
  | _ :: t' => replies t'
  end.

Definition is_fetch (a : Action) : bool :=
  match a with FetchMessage _ => true | _ => false end.


(** The reply the [except] clauses choose for an exception. *)
Definition error_reply (e : PyExc) : Reply :=
  match e with
  | NotFound => CouldNotBeFound
  | Forbidden => NoReadPermission
  | _ => InternalError e
  end.


(** ** Sample data *)

Module Sample.

Definition alice : User := mkUser 1 "alice" "<@1>".
Definition bob : User := mkUser 2 "bob" "<@2>".
Definition bot_user : User := mkUser 99 "translator" "<@99>".

Definition home : Guild := mkGuild 123 "home".
Definition elsewhere : Guild := mkGuild 5 "elsewhere".

Definition bot : Bot := mkBot {[ 123; 456 ]} bot_user.

Definition original : Message := mkMessage bob (Some home) "hello" None.

(** A reply by alice to message 7. *)
Definition command (g : option Guild) (text : string) : Message :=
  mkMessage alice g text (Some (mkReference (Some 7))).

Definition tab : string := String (ascii_of_N 9) EmptyString.

(** Google raises, MyMemory answers, the fetch and the sends succeed. *)
Definition world : World :=
  mkWorld (fun _ => Returned (Some original))
          (fun _ _ => Raised (OtherException "request failed"))
          (fun _ _ => Returned (Some "bonjour"))
          (fun _ => None).

(** The same, but the referenced message comes back as [None]. *)
Definition world_null : World :=
  mkWorld (fun _ => Returned None)
          (google_translate world) (mymemory_translate world)
          (fun _ => None).

(** The same as [world], but every send is refused by the platform. *)
Definition world_send_fails : World :=
  mkWorld (fetch_message world)
          (google_translate world) (mymemory_translate world)
          (fun _ => Some (OtherException "400 Bad Request")).

(** Both providers raise. *)
Definition world_down : World :=
  mkWorld (fetch_message world)
          (fun _ _ => Raised (OtherException "request failed"))
          (fun _ _ => Raised (OtherException "no translation"))
          (fun _ => None).

(** The referenced message is gone. *)
Definition world_not_found : World :=
  mkWorld (fun _ => Raised NotFound)
          (google_translate world) (mymemory_translate world)
          (fun _ => None).

(** A run of [n] digits 1. *)
Definition ones (n : N) : string := N.iter n (String "1") EmptyString.

(** The token is set, the only allowlist entry has 4301 digits. *)
Definition environ_long_id : gmap string string :=
  {[ "DISCORD_TOKEN" := "secret"; "WHITELISTED_SERVER_IDS" := ones 4301 ]}.

Definition environ_good : gmap string string :=
  {[ "DISCORD_TOKEN" := "secret"; "WHITELISTED_SERVER_IDS" := "123, 456" ]}.


Definition environ_no_token : gmap string string :=
  {[ "WHITELISTED_SERVER_IDS" := "123" ]}.

End Sample.

(** * Properties *)

(** ** Unit checks of the string functions *)

Example lower_mixed : PyStr.lower "/TransLate FR" = "/translate fr".
Proof. reflexivity. Qed.

Example split1_two_spaces : PyStr.split1 " " "/translate  fr x" = ["/translate"; " fr x"].
Proof. reflexivity. Qed.

Example split1_tab : PyStr.split1 " " ("/translate" +:+ String (ascii_of_N 9) "fr")
                     = ["/translate" +:+ String (ascii_of_N 9) "fr"].
Proof. reflexivity. Qed.

Example split_commas : PyStr.split "," "123, abc," = ["123"; " abc"; ""].
Proof. reflexivity. Qed.

Example int_examples :
  PyStr.int " 42 " = Some 42 /\ PyStr.int "-1_000" = Some (-1000) /\
  PyStr.int "abc" = None /\ PyStr.int "" = None /\ PyStr.int "1__0" = None /\
  PyStr.int "+" = None /\ PyStr.int "007" = Some 7.
Proof. repeat split; reflexivity. Qed.

Example strip_example : PyStr.strip "  fr " = "fr".
Proof. reflexivity. Qed.

Example int_digit_limit :
  PyStr.int (Sample.ones 4300) <> None /\
  PyStr.int (Sample.ones 4301) = None /\
  PyStr.int ("-" +:+ Sample.ones 4301) = None /\
  PyStr.int ("0" +:+ Sample.ones 4300) = None.
Proof.
  split; [vm_compute; discriminate|].
  repeat split; vm_compute; reflexivity.
Qed.

(** ** The relay *)

Example relay_falls_back :
  get_translation Sample.world "hello" "fr" =
    ([Print (AttemptGoogle "fr"); GoogleTranslate "hello" "fr";
      Print (GoogleFailed (OtherException "request failed"));
      Print (AttemptMyMemory "fr"); MyMemoryTranslate "hello" "fr"],
     Returned (Some "bonjour")).
Proof. reflexivity. Qed.

Example relay_both_fail :
  get_translation Sample.world_down "hello" "zz" =
    ([Print (AttemptGoogle "zz"); GoogleTranslate "hello" "zz";
      Print (GoogleFailed (OtherException "request failed"));
      Print (AttemptMyMemory "zz"); MyMemoryTranslate "hello" "zz";
      Print (MyMemoryFailed (OtherException "no translation"))],
     Returned None).
Proof. reflexivity. Qed.

(** C4: with an empty text the relay returns the fixed notice, a string and
    not [None], whatever the target code, and performs no action at all:
    neither provider is called. *)
Theorem C4_empty_text_notice (w : World) (target_language : string) :
  get_translation w "" target_language = ([], Returned (Some empty_notice)).
Proof. reflexivity. Qed.

(** C3: for a text to translate, the relay calls Google first with the text
    and the target code; MyMemory is called, with the same arguments, exactly
    when Google raised or returned a falsy value, and Google is not called
    again; the relay returns the first usable result and [None] when there
    is none, and never raises. *)
Theorem C3_primary_then_fallback (w : World) (text target_language : string) :
  text <> "" ->
  let r := get_translation w text target_language in
  provider_calls (trace r) =
    GoogleTranslate text target_language ::
      match usable (google_translate w text target_language) with
      | Some _ => []
      | None => [MyMemoryTranslate text target_language]
      end /\
  outcome r =
    Returned
      match usable (google_translate w text target_language) with
      | Some translated_text => Some translated_text
      | None => usable (mymemory_translate w text target_language)
      end.
Proof.
  intros Hne. destruct text as [|c text]; [congruence|].
  unfold get_translation, google_block, mymemory_block, call_google,
    call_mymemory, lift.
  destruct (google_translate w (String c text) target_language)
    as [[[|c1 s1]|]|e1];
    destruct (mymemory_translate w (String c text) target_language)
      as [[[|c2 s2]|]|e2];
    split; reflexivity.
Qed.

Lemma C3_primary_then_fallback_witness :
  "hello" <> "" /\
  outcome (get_translation Sample.world "hello" "fr") = Returned (Some "bonjour").
Proof.
  split; [discriminate|].
  exact (proj2 (C3_primary_then_fallback Sample.world "hello" "fr"
                  ltac:(discriminate))).
Defined.

(** ** The filters of the handler *)

Lemma bind_emit {B} (a : Action) (k : unit -> M B) :
  bind (emit a) k = (a :: trace (k tt), outcome (k tt)).
Proof. unfold bind, emit, trace, outcome. simpl. destruct (k tt); reflexivity. Qed.

Lemma on_message_not_filtered (w : World) (bot : Bot) (message : Message) :
  not_filtered bot message ->
  on_message w bot message =
    (Print (DebugReceived message) :: trace (reply_command w message),
     outcome (reply_command w message)).
Proof.
  intros [Hself Hguild]. unfold on_message. rewrite bind_emit, Hself.
  destruct (guild message) as [g|]; [|reflexivity].
  rewrite bool_decide_eq_false_2; [reflexivity|].
  intros Hnot. exact (Hnot Hguild).
Qed.

(** C8: an event whose guild is not in the allowlist, and likewise an event
    written by the bot itself, is dropped whatever its text: the handler
    returns having done nothing but print, so it sends no reply, fetches
    nothing and calls no provider. *)
Theorem C8_filtered_events_ignored (w : World) (bot : Bot) (message : Message) :
  (user_eqb (author message) (client_user bot) = true \/
   exists g, guild message = Some g /\ guild_id g ∉ WHITELISTED_SERVER_IDS bot) ->
  outcome (on_message w bot message) = Returned tt /\
  forallb is_print (trace (on_message w bot message)) = true /\
  first_reply (trace (on_message w bot message)) = None /\
  provider_calls (trace (on_message w bot message)) = [].
Proof.
  intros H. unfold on_message. rewrite bind_emit.
  destruct (user_eqb (author message) (client_user bot)) eqn:Hself.
  - repeat split; reflexivity.
  - destruct H as [H|(g & Hg & Hnot)]; [discriminate|].
    rewrite Hg, bool_decide_eq_true_2 by exact Hnot.
    repeat split; reflexivity.
Qed.

Lemma C8_filtered_events_ignored_witness :
  first_reply
    (trace (on_message Sample.world Sample.bot
              (Sample.command (Some Sample.elsewhere) "/translate fr"))) = None.
Proof.
  refine (proj1 (proj2 (proj2
           (C8_filtered_events_ignored Sample.world Sample.bot
              (Sample.command (Some Sample.elsewhere) "/translate fr") _)))).
  right. exists Sample.elsewhere. split; [reflexivity|].
  apply (bool_decide_unpack _). vm_compute. exact I.
Defined.

(** ** Parsing the command *)

Lemma reply_command_invalid (w : World) (message : Message) (id : Z)
    (first second : string) :
  referenced_id message = Some id ->
  PyStr.startswith (PyStr.lower (content message)) command_prefix = true ->
  PyStr.split1 " " (PyStr.lower (content message)) = [first; second] ->
  invalid_code (PyStr.strip second) = true ->
  reply_command w message = reply w (InvalidLanguageCode (PyStr.strip second)).
Proof.
  intros Hid Hprefix Hparts Hbad. unfold reply_command.
  rewrite Hid, Hprefix, Hparts. simpl. rewrite Hbad. reflexivity.
Qed.

Lemma reply_command_valid (w : World) (message : Message) (id : Z)
    (first second : string) :
  referenced_id message = Some id ->
  PyStr.startswith (PyStr.lower (content message)) command_prefix = true ->
  PyStr.split1 " " (PyStr.lower (content message)) = [first; second] ->
  invalid_code (PyStr.strip second) = false ->
  reply_command w message = try_block w message id (PyStr.strip second).
Proof.
  intros Hid Hprefix Hparts Hok. unfold reply_command.
  rewrite Hid, Hprefix, Hparts. simpl. rewrite Hok. reflexivity.
Qed.

Lemma trace_reply (w : World) (r : Reply) : trace (reply w r) = [SendReply r].
Proof. unfold reply. rewrite bind_emit. simpl. destruct (send_reply w r); reflexivity. Qed.

(** C6: when the text of a reply command splits into two parts and the
    second part, trimmed, is not two characters long or is not all letters,
    the handler sends the invalid-code reply with that trimmed part in it and
    does nothing else: the referenced message is not fetched and no provider
    is called. *)
Theorem C6_invalid_code_rejected (w : World) (bot : Bot) (message : Message)
    (id : Z) (first second : string) :
  not_filtered bot message ->
  referenced_id message = Some id ->
  PyStr.startswith (PyStr.lower (content message)) command_prefix = true ->
  PyStr.split1 " " (PyStr.lower (content message)) = [first; second] ->
  String.length (PyStr.strip second) <> 2%nat \/
    PyStr.isalpha (PyStr.strip second) = false ->
  trace (on_message w bot message) =
    [Print (DebugReceived message);
     SendReply (InvalidLanguageCode (PyStr.strip second))].
Proof.
  intros Hpass Hid Hprefix Hparts Hbad.
  rewrite on_message_not_filtered by exact Hpass.
  rewrite (reply_command_invalid w message id first second Hid Hprefix Hparts).
  - unfold trace at 1. simpl. rewrite trace_reply. reflexivity.
  - unfold invalid_code. destruct Hbad as [Hlen|Halpha].
    + apply Nat.eqb_neq in Hlen. rewrite Hlen. reflexivity.
    + rewrite Halpha. apply orb_true_r.
Qed.

Lemma C6_invalid_code_rejected_witness :
  trace (on_message Sample.world Sample.bot
           (Sample.command (Some Sample.home) "/translate f")) =
    [Print (DebugReceived (Sample.command (Some Sample.home) "/translate f"));
     SendReply (InvalidLanguageCode "f")].
Proof.
  refine (C6_invalid_code_rejected Sample.world Sample.bot
            (Sample.command (Some Sample.home) "/translate f") 7
            "/translate" "f" _ _ _ _ _).
  - split; [reflexivity|]. apply (bool_decide_unpack _). vm_compute. exact I.
  - reflexivity.
  - reflexivity.
  - reflexivity.
  - left. vm_compute. discriminate.
Defined.

(** ** The [try] block *)

(** Case analysis on everything the world answers in the goal. *)
Ltac ask_world w :=
  repeat
    (cbn [bind try_except emit ret raise lift trace outcome fst snd app
          truthy first_reply provider_calls List.filter is_provider_call
          last] in *;
     match goal with
     | |- context [fetch_message w ?i] =>
         destruct (fetch_message w i) as [[?|]|[| |?]] eqn:?
     | |- context [match content ?m with _ => _ end] =>
         destruct (content m) as [|? ?] eqn:?
     | |- context [match guild ?m with _ => _ end] =>
         destruct (guild m) as [?|] eqn:?
     | |- context [google_translate w ?a ?b] =>
         destruct (google_translate w a b) as [[[|? ?]|]|?] eqn:?
     | |- context [mymemory_translate w ?a ?b] =>
         destruct (mymemory_translate w a b) as [[[|? ?]|]|?] eqn:?
     | |- context [send_reply w ?r] =>
         destruct (send_reply w r) as [[| |?]|] eqn:?
     end).

Ltac unfold_try_block :=
  unfold try_block, fetch_and_translate, on_error, get_translation,
    google_block, mymemory_block, guild_name_of, call_fetch_message,
    call_google, call_mymemory, reply.

Lemma try_block_starts_with_fetch (w : World) (message : Message) (id : Z)
    (target_lang : string) :
  exists t, trace (try_block w message id target_lang) = FetchMessage id :: t.
Proof.
  unfold_try_block. ask_world w; eexists; reflexivity.
Qed.

Lemma try_block_never_sends_usage (w : World) (message : Message) (id : Z)
    (target_lang : string) :
  ~ In (SendReply Usage) (trace (try_block w message id target_lang)).
Proof.
  unfold_try_block. ask_world w; simpl; intuition discriminate.
Qed.

(** The block always finishes on a send: it returns when that send went
    through and lets out only the exception of a send that did not. *)
Lemma try_block_ends_in_reply (w : World) (message : Message) (id : Z)
    (target_lang : string) :
  exists r, last (trace (try_block w message id target_lang)) = Some (SendReply r) /\
    match outcome (try_block w message id target_lang) with
    | Returned _ => send_reply w r = None
    | Raised e => send_reply w r = Some e
    end.
Proof.
  unfold_try_block. ask_world w; eexists; (split; [reflexivity|]); assumption.
Qed.

Lemma try_block_fetch_raised (w : World) (message : Message) (id : Z)
    (target_lang : string) (e : PyExc) :
  fetch_message w id = Raised e ->
  trace (try_block w message id target_lang) =
    FetchMessage id :: trace (on_error w e).
Proof.
  intros Hfetch. unfold_try_block. cbn [bind emit lift]. rewrite Hfetch.
  destruct e; ask_world w; reflexivity.
Qed.

Lemma try_block_null_message (w : World) (message : Message) (id : Z)
    (target_lang : string) :
  fetch_message w id = Returned None ->
  first_reply (trace (try_block w message id target_lang)) = Some CouldNotRetrieve /\
  provider_calls (trace (try_block w message id target_lang)) = [].
Proof.
  intros Hfetch. unfold_try_block. cbn [bind emit lift]. rewrite Hfetch.
  ask_world w; split; reflexivity.
Qed.

Lemma try_block_empty_text (w : World) (message original : Message) (id : Z)
    (target_lang : string) :
  fetch_message w id = Returned (Some original) ->
  content original = "" ->
  first_reply (trace (try_block w message id target_lang)) = Some NoTextContent /\
  provider_calls (trace (try_block w message id target_lang)) = [].
Proof.
  intros Hfetch Hempty. unfold_try_block. cbn [bind emit lift].
  rewrite Hfetch. cbn [bind]. rewrite Hempty.
  ask_world w; split; reflexivity.
Qed.

(** A provider is called only for a fetched message with a text, and then
    with that text and the validated code. *)
Lemma try_block_provider_calls (w : World) (message : Message) (id : Z)
    (target_lang : string) (a : Action) :
  In a (provider_calls (trace (try_block w message id target_lang))) ->
  exists original,
    fetch_message w id = Returned (Some original) /\
    content original <> "" /\
    (a = GoogleTranslate (content original) target_lang \/
     a = MyMemoryTranslate (content original) target_lang).
Proof.
  unfold_try_block.
  ask_world w; simpl; intros Hin;
    repeat (destruct Hin as [<-|Hin]); try contradiction;
    eexists; (split; [reflexivity|]);
    match goal with H : content _ = _ |- _ => rewrite H end;
    (split; [discriminate|]); auto.
Qed.

(** In a guild, a fetched message with a text does reach the relay. *)
Lemma try_block_translates (w : World) (message original : Message) (g : Guild)
    (id : Z) (target_lang : string) :
  guild message = Some g ->
  fetch_message w id = Returned (Some original) ->
  content original <> "" ->
  exists t,
    trace (try_block w message id target_lang) =
      FetchMessage id ::
      Print (Translating (content original) target_lang
               (display_name (author message)) (guild_name g)) ::
      Print (AttemptGoogle target_lang) ::
      GoogleTranslate (content original) target_lang :: t.
Proof.
  intros Hguild Hfetch Htext. unfold_try_block. cbn [bind emit lift].
  rewrite Hfetch, Hguild. cbn [bind].
  destruct (content original) as [|c s] eqn:Hcontent; [congruence|].
  ask_world w; eexists; reflexivity.
Qed.


Lemma on_message_valid_command (w : World) (bot : Bot) (message : Message)
    (id : Z) (target_lang : string) :
  valid_command bot message id target_lang ->
  on_message w bot message =
    (Print (DebugReceived message) :: trace (try_block w message id target_lang),
     outcome (try_block w message id target_lang)).
Proof.
  intros (Hpass & Hid & Hprefix & (first & second & Hparts & <-) & Hok).
  rewrite on_message_not_filtered by exact Hpass.
  rewrite (reply_command_valid w message id first second) by assumption.
  reflexivity.
Qed.

(** C1, at a direct message: alice replies "/translate fr" to message 7
    outside any guild, the fetch returns "hello" and the providers are up.
    The handler fetches the message, then fails on [message.guild.name]
    while it builds the diagnostic line, and answers with the internal
    error: the relay is not invoked. *)
Theorem C1_direct_message_not_translated :
  on_message Sample.world Sample.bot (Sample.command None "/translate fr") =
    ([Print (DebugReceived (Sample.command None "/translate fr"));
      FetchMessage 7;
      Print (UnexpectedError
               (OtherException "'NoneType' object has no attribute 'name'"));
      SendReply (InternalError
               (OtherException "'NoneType' object has no attribute 'name'"))],
     Returned tt).
Proof. reflexivity. Qed.

(** The same command sent in an allowed guild is translated. *)
Example guild_command_translated :
  on_message Sample.world Sample.bot (Sample.command (Some Sample.home) "/translate fr") =
    ([Print (DebugReceived (Sample.command (Some Sample.home) "/translate fr"));
      FetchMessage 7;
      Print (Translating "hello" "fr" "alice" "home");
      Print (AttemptGoogle "fr");
      GoogleTranslate "hello" "fr";
      Print (GoogleFailed (OtherException "request failed"));
      Print (AttemptMyMemory "fr");
      MyMemoryTranslate "hello" "fr";
      SendReply (Translation "<@2>" "fr" "bonjour")],
     Returned tt).
Proof. vm_compute. reflexivity. Qed.

(** ** Outcomes of the fetch *)

Example not_found_reply :
  on_message Sample.world_not_found Sample.bot
    (Sample.command (Some Sample.home) "/translate fr") =
    ([Print (DebugReceived (Sample.command (Some Sample.home) "/translate fr"));
      FetchMessage 7; SendReply CouldNotBeFound],
     Returned tt).
Proof. vm_compute. reflexivity. Qed.

Example both_providers_down_reply :
  first_reply (trace (on_message Sample.world_down Sample.bot
                        (Sample.command (Some Sample.home) "/translate fr")))
    = Some (TranslationFailed "fr").
Proof. vm_compute. reflexivity. Qed.

(** C7, as stated, fails for a retrieved message that is [None]: the
    command is valid and the fetch returns [None], yet the reply is the
    could-not-retrieve one, not the no-text-content one. *)
Lemma C7_null_message_counterexample :
  valid_command Sample.bot (Sample.command (Some Sample.home) "/translate fr") 7 "fr" /\
  fetch_message Sample.world_null 7 = Returned None /\
  first_reply (trace (on_message Sample.world_null Sample.bot
                        (Sample.command (Some Sample.home) "/translate fr")))
    = Some CouldNotRetrieve /\
  first_reply (trace (on_message Sample.world_null Sample.bot
                        (Sample.command (Some Sample.home) "/translate fr")))
    <> Some NoTextContent.
Proof.
  split; [|split; [reflexivity|split; [reflexivity|discriminate]]].
  split; [split; [reflexivity|apply (bool_decide_unpack _); vm_compute; exact I]|].
  split; [reflexivity|]. split; [reflexivity|].
  split; [|reflexivity]. exists "/translate", "fr". split; reflexivity.
Qed.

(** C7, amended: for a valid command the outcome of the fetch decides the
    reply.  A not-found error gives the could-not-be-found reply, a forbidden
    error the no-read-permission reply, any other error the internal-error
    reply; a retrieved [None] gives the could-not-retrieve reply, a retrieved
    message with empty text the no-text-content reply; and a provider is
    called only when a message with non-empty text was retrieved, with that
    text and the validated code. *)
Theorem C7_fetch_outcomes (w : World) (bot : Bot) (message : Message)
    (id : Z) (target_lang : string) :
  valid_command bot message id target_lang ->
  let t := trace (on_message w bot message) in
  (fetch_message w id = Raised NotFound ->
   t = [Print (DebugReceived message); FetchMessage id; SendReply CouldNotBeFound]) /\
  (fetch_message w id = Raised Forbidden ->
   t = [Print (DebugReceived message); FetchMessage id; SendReply NoReadPermission]) /\
  (forall detail, fetch_message w id = Raised (OtherException detail) ->
   t = [Print (DebugReceived message); FetchMessage id;
        Print (UnexpectedError (OtherException detail));
        SendReply (InternalError (OtherException detail))]) /\
  (fetch_message w id = Returned None ->
   first_reply t = Some CouldNotRetrieve /\ provider_calls t = []) /\
  (forall original, fetch_message w id = Returned (Some original) ->
   content original = "" ->
   first_reply t = Some NoTextContent /\ provider_calls t = []) /\
  (forall a, In a (provider_calls t) ->
   exists original,
     fetch_message w id = Returned (Some original) /\
     content original <> "" /\
     (a = GoogleTranslate (content original) target_lang \/
      a = MyMemoryTranslate (content original) target_lang)).
Proof.
  intros Hvalid t. subst t.
  rewrite (on_message_valid_command w bot message id target_lang Hvalid).
  cbn [trace fst].
  split; [|split; [|split; [|split; [|split]]]].
  - intros Hfetch. rewrite (try_block_fetch_raised _ _ _ _ _ Hfetch).
    simpl. rewrite trace_reply. reflexivity.
  - intros Hfetch. rewrite (try_block_fetch_raised _ _ _ _ _ Hfetch).
    simpl. rewrite trace_reply. reflexivity.
  - intros detail Hfetch. rewrite (try_block_fetch_raised _ _ _ _ _ Hfetch).
    unfold on_error. rewrite bind_emit, trace_reply. reflexivity.
  - intros Hfetch.
    exact (try_block_null_message w message id target_lang Hfetch).
  - intros original Hfetch Hempty.
    exact (try_block_empty_text w message original id target_lang Hfetch Hempty).
  - intros a Hin.
    exact (try_block_provider_calls w message id target_lang a Hin).
Qed.

Lemma C7_fetch_outcomes_witness :
  first_reply (trace (on_message Sample.world_null Sample.bot
                        (Sample.command (Some Sample.home) "/translate fr")))
    = Some CouldNotRetrieve.
Proof.
  refine (proj1 (proj1 (proj2 (proj2 (proj2
    (C7_fetch_outcomes Sample.world_null Sample.bot
       (Sample.command (Some Sample.home) "/translate fr") 7 "fr" _)))) _)).
  - split; [split; [reflexivity|apply (bool_decide_unpack _); vm_compute; exact I]|].
    split; [reflexivity|]. split; [reflexivity|].
    split; [|reflexivity]. exists "/translate", "fr". split; reflexivity.
  - reflexivity.
Defined.

(** ** What leaves the handler *)

(** C2, as stated, fails when the platform refuses a send.  On the usage
    path and on the invalid-code path the reply is sent outside the [try]
    statement, so the exception of the send leaves [on_message]. *)
Lemma C2_failed_send_escapes_counterexample :
  outcome (on_message Sample.world_send_fails Sample.bot
             (Sample.command (Some Sample.home) "/translate"))
    = Raised (OtherException "400 Bad Request") /\
  outcome (on_message Sample.world_send_fails Sample.bot
             (Sample.command (Some Sample.home) "/translate f"))
    = Raised (OtherException "400 Bad Request").
Proof. split; vm_compute; reflexivity. Qed.

Lemma reply_ends_in_reply (w : World) (r : Reply) :
  match outcome (reply w r) with
  | Returned _ => send_reply w r = None
  | Raised e => send_reply w r = Some e
  end.
Proof. unfold reply. rewrite bind_emit. simpl. destruct (send_reply w r); reflexivity. Qed.

(** C2, amended: every run of the handler starts by logging the event, and
    what the fetch, the providers or the diagnostic code raise never leaves
    it.  The handler returns either without having sent any reply or right
    after a reply that went through; an exception leaves it only when the
    last thing it did was a send that the platform refused, and it is the
    exception of that send. *)
Theorem C2_only_a_refused_send_escapes (w : World) (bot : Bot) (message : Message) :
  head (trace (on_message w bot message)) = Some (Print (DebugReceived message)) /\
  match outcome (on_message w bot message) with
  | Returned _ =>
      first_reply (trace (on_message w bot message)) = None \/
      exists r, last (trace (on_message w bot message)) = Some (SendReply r) /\
                send_reply w r = None
  | Raised e =>
      exists r, last (trace (on_message w bot message)) = Some (SendReply r) /\
                send_reply w r = Some e
  end.
Proof.
  unfold on_message. rewrite bind_emit. split; [reflexivity|].
  cbn [trace outcome fst snd].
  assert (Hreply : forall r,
    match outcome (reply w r) with
    | Returned _ =>
        first_reply (Print (DebugReceived message) :: trace (reply w r)) = None \/
        exists r', last (Print (DebugReceived message) :: trace (reply w r))
                     = Some (SendReply r') /\ send_reply w r' = None
    | Raised e =>
        exists r', last (Print (DebugReceived message) :: trace (reply w r))
                     = Some (SendReply r') /\ send_reply w r' = Some e
    end).
  { intros r. pose proof (reply_ends_in_reply w r) as H. rewrite trace_reply.
    destruct (outcome (reply w r)); [right|]; exists r; split;
      first [reflexivity | exact H]. }
  assert (Hcommand :
    match outcome (reply_command w message) with
    | Returned _ =>
        first_reply (Print (DebugReceived message) :: trace (reply_command w message))
          = None \/
        exists r, last (Print (DebugReceived message) :: trace (reply_command w message))
                    = Some (SendReply r) /\ send_reply w r = None
    | Raised e =>
        exists r, last (Print (DebugReceived message) :: trace (reply_command w message))
                    = Some (SendReply r) /\ send_reply w r = Some e
    end).
  { unfold reply_command.
    destruct (referenced_id message) as [id|]; [|left; reflexivity].
    destruct (PyStr.startswith _ _); [|left; reflexivity].
    destruct (_ <? _)%nat; [apply Hreply|].
    destruct (invalid_code _); [apply Hreply|].
    fold (try_block w message id
            (PyStr.strip (nth 1 (PyStr.split1 " " (PyStr.lower (content message))) ""))).
    destruct (try_block_ends_in_reply w message id
                (PyStr.strip (nth 1 (PyStr.split1 " " (PyStr.lower (content message))) "")))
      as (r & Hlast & Hsend).
    rewrite last_cons, Hlast.
    destruct (outcome (try_block _ _ _ _)); [right|]; exists r; split;
      first [reflexivity | exact Hsend]. }
  destruct (user_eqb _ _); [left; reflexivity|].
  destruct (guild message) as [g|]; [|exact Hcommand].
  destruct (bool_decide _); [left; reflexivity|exact Hcommand].
Qed.

(** ** Recognising the command *)

Lemma startswith_app (prefix s : string) :
  PyStr.startswith (prefix +:+ s) prefix = true.
Proof.
  induction prefix as [|c prefix IH]; [reflexivity|].
  simpl. rewrite Ascii.eqb_refl. exact IH.
Qed.

Lemma split1_at_first_space (a b : string) :
  no_space a = true ->
  PyStr.split1 " " (a +:+ " " +:+ b) = [a; b].
Proof.
  unfold no_space. induction a as [|c a IH]; intros Hno; [reflexivity|].
  simpl in Hno. apply andb_true_iff in Hno as [Hc Ha].
  apply negb_true_iff in Hc. simpl. rewrite Hc, (IH Ha). reflexivity.
Qed.

(** Without a space there is nothing to split. *)
Lemma split1_without_space (a : string) :
  no_space a = true -> PyStr.split1 " " a = [a].
Proof.
  unfold no_space. induction a as [|c a IH]; intros Hno; [reflexivity|].
  simpl in Hno. apply andb_true_iff in Hno as [Hc Ha].
  apply negb_true_iff in Hc. simpl. rewrite Hc, (IH Ha). reflexivity.
Qed.

(** A text that, lower-cased, is the prefix, any run of characters without
    a space, a space and a part that trims to a valid code, reaches the
    [try] block with that code. *)
Lemma prefixed_command_reaches_try (w : World) (bot : Bot) (message : Message)
    (id : Z) (extra rest : string) :
  not_filtered bot message ->
  referenced_id message = Some id ->
  PyStr.lower (content message) = command_prefix +:+ extra +:+ " " +:+ rest ->
  no_space extra = true ->
  invalid_code (PyStr.strip rest) = false ->
  PyStr.split1 " " (PyStr.lower (content message)) = [command_prefix +:+ extra; rest] /\
  valid_command bot message id (PyStr.strip rest).
Proof.
  intros Hpass Hid Htext Hextra Hok.
  assert (Hparts : PyStr.split1 " " (PyStr.lower (content message))
                   = [command_prefix +:+ extra; rest]).
  { rewrite Htext.
    change (command_prefix +:+ extra +:+ " " +:+ rest)
      with ((command_prefix +:+ extra) +:+ " " +:+ rest).
    apply split1_at_first_space.
    unfold no_space in *. simpl. exact Hextra. }
  split; [exact Hparts|].
  split; [exact Hpass|]. split; [exact Hid|].
  split; [rewrite Htext; apply startswith_app|].
  split; [|exact Hok].
  exists (command_prefix +:+ extra), rest. split; [exact Hparts|reflexivity].
Qed.

(** C9, as stated, fails when the separator is a tab: the lower-cased text
    is the command token, a whitespace character and the valid code "fr",
    yet [split(' ', 1)] leaves it in one piece and the handler sends the
    usage message. *)
Lemma C9_tab_separator_counterexample :
  not_filtered Sample.bot
    (Sample.command (Some Sample.home) ("/translate" +:+ Sample.tab +:+ "fr")) /\
  referenced_id
    (Sample.command (Some Sample.home) ("/translate" +:+ Sample.tab +:+ "fr")) = Some 7 /\
  PyStr.lower ("/translate" +:+ Sample.tab +:+ "fr")
    = command_prefix +:+ Sample.tab +:+ "fr" /\
  PyStr.all_chars PyStr.isspace_char Sample.tab = true /\
  invalid_code (PyStr.strip "fr") = false /\
  PyStr.split1 " " (PyStr.lower ("/translate" +:+ Sample.tab +:+ "fr"))
    = ["/translate" +:+ Sample.tab +:+ "fr"] /\
  on_message Sample.world Sample.bot
    (Sample.command (Some Sample.home) ("/translate" +:+ Sample.tab +:+ "fr"))
    = ([Print (DebugReceived
                 (Sample.command (Some Sample.home)
                    ("/translate" +:+ Sample.tab +:+ "fr")));
        SendReply Usage],
       Returned tt).
Proof.
  split; [split; [reflexivity|apply (bool_decide_unpack _); vm_compute; exact I]|].
  repeat split; vm_compute; reflexivity.
Qed.

(** C9, amended: when the lower-cased text of a reply event is the command
    token, a space (U+0020) and a part that trims to a valid 2-letter code,
    the argument parse cuts it at that first space into the token and the
    rest, and the event gets past the usage-message check (and the code
    check) into the [try] block; no usage message is sent.  A text without
    a space is left in one part, whatever other whitespace it contains. *)
Theorem C9_space_separates_the_code (w : World) (bot : Bot) (message : Message)
    (id : Z) (rest : string) :
  not_filtered bot message ->
  referenced_id message = Some id ->
  PyStr.lower (content message) = command_prefix +:+ " " +:+ rest ->
  invalid_code (PyStr.strip rest) = false ->
  PyStr.split1 " " (PyStr.lower (content message)) = [command_prefix; rest] /\
  on_message w bot message =
    (Print (DebugReceived message)
       :: trace (try_block w message id (PyStr.strip rest)),
     outcome (try_block w message id (PyStr.strip rest))) /\
  ~ In (SendReply Usage) (trace (on_message w bot message)) /\
  (forall text, no_space text = true -> PyStr.split1 " " text = [text]).
Proof.
  intros Hpass Hid Htext Hok.
  destruct (prefixed_command_reaches_try w bot message id "" rest
              Hpass Hid Htext eq_refl Hok) as [Hparts Hvalid].
  split; [exact Hparts|].
  rewrite (on_message_valid_command w bot message id _ Hvalid).
  split; [reflexivity|].
  split; [|exact split1_without_space].
  cbn [trace fst]. intros [Habs|Hin]; [discriminate|].
  exact (try_block_never_sends_usage w message id _ Hin).
Qed.

Lemma C9_space_separates_the_code_witness :
  PyStr.split1 " " (PyStr.lower "/Translate  FR") = [command_prefix; " fr"].
Proof.
  refine (proj1 (C9_space_separates_the_code Sample.world Sample.bot
            (Sample.command (Some Sample.home) "/Translate  FR") 7 " fr" _ _ _ _)).
  - split; [reflexivity|apply (bool_decide_unpack _); vm_compute; exact I].
  - reflexivity.
  - reflexivity.
  - reflexivity.
Defined.

(** Recognition only asks that the lower-cased text start with
    "/translate".  When that prefix is followed at once by further
    characters without a space, then a space and a part that trims to a
    valid 2-letter code (as in "/translatexyz fr"), the handler takes the
    event for a well-formed command: the split gives two parts and the
    referenced message is fetched, in a guild and in a direct message
    alike; in a guild event, when the message comes back with a text,
    Google is called with that text and the code. *)
Theorem prefixed_command_in_guild_translated (w : World) (bot : Bot) (message : Message)
    (id : Z) (extra rest : string) :
  not_filtered bot message ->
  referenced_id message = Some id ->
  PyStr.lower (content message) = command_prefix +:+ extra +:+ " " +:+ rest ->
  no_space extra = true ->
  invalid_code (PyStr.strip rest) = false ->
  PyStr.split1 " " (PyStr.lower (content message)) = [command_prefix +:+ extra; rest] /\
  on_message w bot message =
    (Print (DebugReceived message)
       :: trace (try_block w message id (PyStr.strip rest)),
     outcome (try_block w message id (PyStr.strip rest))) /\
  (exists t, trace (on_message w bot message) =
               Print (DebugReceived message) :: FetchMessage id :: t) /\
  (forall g original,
      guild message = Some g ->
      fetch_message w id = Returned (Some original) ->
      content original <> "" ->
      In (GoogleTranslate (content original) (PyStr.strip rest))
         (trace (on_message w bot message))).
Proof.
  intros Hpass Hid Htext Hextra Hok.
  destruct (prefixed_command_reaches_try w bot message id extra rest
              Hpass Hid Htext Hextra Hok) as [Hparts Hvalid].
  split; [exact Hparts|].
  rewrite (on_message_valid_command w bot message id _ Hvalid).
  split; [reflexivity|]. cbn [trace fst]. split.
  - destruct (try_block_starts_with_fetch w message id (PyStr.strip rest)) as [t Ht].
    exists t. rewrite Ht. reflexivity.
  - intros g original Hguild Hfetch Htextne.
    destruct (try_block_translates w message original g id (PyStr.strip rest)
                Hguild Hfetch Htextne) as [t Ht].
    rewrite Ht. right. right. right. right. left. reflexivity.
Qed.

Lemma prefixed_command_in_guild_translated_witness :
  In (GoogleTranslate "hello" "fr")
     (trace (on_message Sample.world Sample.bot
               (Sample.command (Some Sample.home) "/translatexyz fr"))).
Proof.
  refine (proj2 (proj2 (proj2
    (prefixed_command_in_guild_translated Sample.world Sample.bot
       (Sample.command (Some Sample.home) "/translatexyz fr") 7 "xyz" "fr"
       _ _ _ _ _))) Sample.home Sample.original _ _ _).
  - split; [reflexivity|apply (bool_decide_unpack _); vm_compute; exact I].
  - reflexivity.
  - reflexivity.
  - reflexivity.
  - reflexivity.
  - reflexivity.
  - reflexivity.
  - discriminate.
Defined.

(** C10, at a direct message: alice replies "/translatexyz fr" to message 7
    outside any guild, the fetch returns "hello" and the providers are up.
    The text passes the prefix test and the argument parse, so the
    referenced message is fetched; then the handler fails on
    [message.guild.name] as it does for "/translate fr" and answers with
    the internal error: no provider is called. *)
Theorem C10_direct_message_prefixed_command_not_translated :
  PyStr.split1 " " (PyStr.lower "/translatexyz fr") = ["/translatexyz"; "fr"] /\
  on_message Sample.world Sample.bot (Sample.command None "/translatexyz fr") =
    ([Print (DebugReceived (Sample.command None "/translatexyz fr"));
      FetchMessage 7;
      Print (UnexpectedError
               (OtherException "'NoneType' object has no attribute 'name'"));
      SendReply (InternalError
               (OtherException "'NoneType' object has no attribute 'name'"))],
     Returned tt) /\
  provider_calls
    (trace (on_message Sample.world Sample.bot
              (Sample.command None "/translatexyz fr"))) = [].
Proof. repeat split; vm_compute; reflexivity. Qed.

(** ** Start-up *)

Example startup_good :
  startup Sample.environ_good = [CreateClient; RunClient "secret"] /\
  loaded_whitelist Sample.environ_good = Some (WHITELISTED_SERVER_IDS Sample.bot).
Proof. split; vm_compute; reflexivity. Qed.

Example startup_no_token :
  startup Sample.environ_no_token = fail_with TokenMissing.
Proof. vm_compute. reflexivity. Qed.

Example startup_long_id :
  startup Sample.environ_long_id = fail_with WhitelistMalformed.
Proof. vm_compute. reflexivity. Qed.





(** * Further properties of the code *)

(** ** The relay as its caller sees it *)

(** X1: whatever the providers do, the relay returns (it never raises), what
    it returns is [None] or a non-empty string, so that the caller's test
    [if translated_text] fails exactly on [None], and it makes at most two
    provider calls. *)
Theorem X1_relay_total_and_never_empty (w : World) (text target_language : string) :
  exists r,
    outcome (get_translation w text target_language) = Returned r /\
    truthy r = r /\
    (length (provider_calls (trace (get_translation w text target_language))) <= 2)%nat.
Proof.
  destruct text as [|c text].
  - exists (Some empty_notice). repeat split. simpl. lia.
  - unfold get_translation, google_block, mymemory_block, call_google,
      call_mymemory, lift.
    destruct (google_translate w (String c text) target_language)
      as [[[|c1 s1]|]|e1];
      destruct (mymemory_translate w (String c text) target_language)
        as [[[|c2 s2]|]|e2];
      eexists; (split; [reflexivity|]); split; simpl; first [reflexivity | lia].
Qed.

(** ** Events that are not commands *)

Lemma only_prints_after_debug (w : World) (bot : Bot) (message : Message) :
  reply_command w message = ret tt ->
  outcome (on_message w bot message) = Returned tt /\
  forallb is_print (trace (on_message w bot message)) = true.
Proof.
  intros Hignored. unfold on_message. rewrite bind_emit, Hignored.
  destruct (user_eqb _ _); [split; reflexivity|].
  destruct (guild message) as [g|]; [|split; reflexivity].
  destruct (bool_decide _); split; reflexivity.
Qed.

(** X2: an event that is not a reply (no reference, or a reference whose
    message id is [None] or 0), and likewise a reply whose lower-cased text
    does not start with "/translate", is ignored: the handler returns having
    only printed, whoever sent it and whatever else the text holds. *)
Theorem X2_not_a_reply_command_ignored (w : World) (bot : Bot) (message : Message) :
  referenced_id message = None \/
  PyStr.startswith (PyStr.lower (content message)) command_prefix = false ->
  outcome (on_message w bot message) = Returned tt /\
  forallb is_print (trace (on_message w bot message)) = true.
Proof.
  intros H. apply only_prints_after_debug. unfold reply_command.
  destruct (referenced_id message) as [id|]; [|reflexivity].
  destruct H as [H|H]; [discriminate|]. rewrite H. reflexivity.
Qed.

Lemma X2_not_a_reply_command_ignored_witness :
  forallb is_print
    (trace (on_message Sample.world Sample.bot
              (mkMessage Sample.alice (Some Sample.home) "/translate fr"
                 (Some (mkReference (Some 0)))))) = true.
Proof.
  refine (proj2 (X2_not_a_reply_command_ignored Sample.world Sample.bot
                   (mkMessage Sample.alice (Some Sample.home) "/translate fr"
                      (Some (mkReference (Some 0)))) _)).
  left. reflexivity.
Defined.

(** ** The argument parse *)

Lemma lower_char_space (c : ascii) :
  Ascii.eqb (PyStr.lower_char c) " " = Ascii.eqb c " ".
Proof. destruct c as [[] [] [] [] [] [] [] []]; reflexivity. Qed.

Lemma no_space_lower (s : string) : no_space (PyStr.lower s) = no_space s.
Proof.
  unfold no_space. induction s as [|c s IH]; [reflexivity|].
  simpl. rewrite lower_char_space, IH. reflexivity.
Qed.

Lemma split1_with_space (s : string) :
  no_space s = false ->
  exists a b, PyStr.split1 " " s = [a; b] /\ s = a +:+ " " +:+ b /\ no_space a = true.
Proof.
  unfold no_space. induction s as [|c s IH]; intros Hsp; [discriminate|].
  simpl in *. destruct (Ascii.eqb c " ") eqn:Hc.
  - apply Ascii.eqb_eq in Hc as ->. exists "", s. repeat split.
  - destruct (IH Hsp) as (a & b & Hparts & Hs & Ha).
    exists (String c a), b. rewrite Hparts. simpl. rewrite Hc, Ha.
    repeat split. rewrite Hs at 1. reflexivity.
Qed.

(** X3: [split(' ', 1)] yields two parts exactly for a text that is the
    first part, a space and the second part, where the first part holds no
    space: the code handed to the validation is everything after the first
    space. *)
Theorem X3_split_at_first_space (s a b : string) :
  PyStr.split1 " " s = [a; b] <-> s = a +:+ " " +:+ b /\ no_space a = true.
Proof.
  split.
  - intros Hparts. destruct (no_space s) eqn:Hsp.
    + rewrite (split1_without_space s Hsp) in Hparts. discriminate.
    + destruct (split1_with_space s Hsp) as (a' & b' & Hparts' & Hs & Ha).
      rewrite Hparts' in Hparts. injection Hparts as <- <-. auto.
  - intros [-> Ha]. apply split1_at_first_space. exact Ha.
Qed.

(** X4: for a reply past the filters whose lower-cased text starts with
    "/translate", the usage message is sent exactly when the text holds no
    space; then it is the only thing the handler does after the debug
    line: nothing is fetched and no provider is called. *)
Theorem X4_usage_iff_no_space (w : World) (bot : Bot) (message : Message) (id : Z) :
  not_filtered bot message ->
  referenced_id message = Some id ->
  PyStr.startswith (PyStr.lower (content message)) command_prefix = true ->
  (In (SendReply Usage) (trace (on_message w bot message)) <->
   no_space (content message) = true) /\
  (no_space (content message) = true ->
   trace (on_message w bot message) =
     [Print (DebugReceived message); SendReply Usage]).
Proof.
  intros Hpass Hid Hprefix.
  rewrite on_message_not_filtered by exact Hpass. cbn [trace fst].
  assert (Husage : no_space (content message) = true ->
            trace (reply_command w message) = [SendReply Usage]).
  { intros Hno. unfold reply_command. rewrite Hid, Hprefix.
    rewrite split1_without_space by (rewrite no_space_lower; exact Hno).
    simpl. apply trace_reply. }
  split; [split|].
  - intros [Habs|Hin]; [discriminate|].
    destruct (no_space (content message)) eqn:Hsp; [reflexivity|exfalso].
    rewrite <- no_space_lower in Hsp.
    destruct (split1_with_space _ Hsp) as (a & b & Hparts & _ & _).
    destruct (invalid_code (PyStr.strip b)) eqn:Hcode.
    + rewrite (reply_command_invalid w message id a b Hid Hprefix Hparts Hcode),
        trace_reply in Hin.
      destruct Hin as [Habs|[]]. discriminate.
    + rewrite (reply_command_valid w message id a b Hid Hprefix Hparts Hcode) in Hin.
      exact (try_block_never_sends_usage w message id _ Hin).
  - intros Hno. rewrite (Husage Hno). right. left. reflexivity.
  - intros Hno. rewrite (Husage Hno). reflexivity.
Qed.

Lemma X4_usage_iff_no_space_witness :
  trace (on_message Sample.world Sample.bot
           (Sample.command (Some Sample.home) "/translatefr")) =
    [Print (DebugReceived (Sample.command (Some Sample.home) "/translatefr"));
     SendReply Usage].
Proof.
  refine (proj2 (X4_usage_iff_no_space Sample.world Sample.bot
                   (Sample.command (Some Sample.home) "/translatefr") 7 _ _ _) _).
  - split; [reflexivity|apply (bool_decide_unpack _); vm_compute; exact I].
  - reflexivity.
  - reflexivity.
  - reflexivity.
Defined.

(** ** How much one event can cause *)

Lemma try_block_bounded (w : World) (message : Message) (id : Z)
    (target_lang : string) :
  List.filter is_fetch (trace (try_block w message id target_lang)) = [FetchMessage id] /\
  match replies (trace (try_block w message id target_lang)) with
  | [] => False
  | [_] => True
  | [r1; _] => send_reply w r1 <> None
  | _ => False
  end.
Proof.
  unfold_try_block. ask_world w; simpl; (split; [reflexivity|]);
    first [exact I | congruence].
Qed.

(** X5: one event leads to at most one fetch of the referenced message and
    to at most two reply sends, and a second reply is sent only after the
    platform refused the first one. *)
Theorem X5_one_fetch_two_replies_at_most (w : World) (bot : Bot) (message : Message) :
  (length (List.filter is_fetch (trace (on_message w bot message))) <= 1)%nat /\
  match replies (trace (on_message w bot message)) with
  | [] | [_] => True
  | [r1; _] => send_reply w r1 <> None
  | _ => False
  end.
Proof.
  unfold on_message. rewrite bind_emit. cbn [trace fst].
  assert (Hcommand :
    (length (List.filter is_fetch
               (Print (DebugReceived message) :: trace (reply_command w message))) <= 1)%nat /\
    match replies (Print (DebugReceived message) :: trace (reply_command w message)) with
    | [] | [_] => True
    | [r1; _] => send_reply w r1 <> None
    | _ => False
    end).
  { unfold reply_command.
    destruct (referenced_id message) as [id|]; [|simpl; auto].
    destruct (PyStr.startswith _ _); [|simpl; auto].
    destruct (_ <? _)%nat; [rewrite trace_reply; simpl; auto|].
    destruct (invalid_code _); [rewrite trace_reply; simpl; auto|].
    fold (try_block w message id
            (PyStr.strip (nth 1 (PyStr.split1 " " (PyStr.lower (content message))) ""))).
    destruct (try_block_bounded w message id
                (PyStr.strip (nth 1 (PyStr.split1 " " (PyStr.lower (content message))) "")))
      as [Hfetch Hreplies].
    cbn [List.filter is_fetch replies]. rewrite Hfetch. split; [simpl; lia|].
    destruct (replies _) as [|r1 [|r2 [|r3 rs]]]; auto. }
  destruct (user_eqb _ _); [simpl; auto|].
  destruct (guild message) as [g|]; [|exact Hcommand].
  destruct (bool_decide _); [simpl; auto|exact Hcommand].
Qed.

(** ** Letter case *)




(** ** When a provider is called *)




Section AllChars.

Variable p : ascii -> bool.





End AllChars.





(** ** From the fetched text to the reply *)

(** X8: for a valid command in a guild whose referenced message was fetched
    with a text, the reply is decided by the relay: the translation reply,
    carrying the mention of the author of the referenced message, the code
    and the first usable provider result, or else the both-services-failed
    reply naming the code. *)
Theorem X8_reply_follows_the_relay (w : World) (bot : Bot) (message : Message)
    (id : Z) (target_lang : string) (g : Guild) (original : Message) :
  valid_command bot message id target_lang ->
  guild message = Some g ->
  fetch_message w id = Returned (Some original) ->
  content original <> "" ->
  first_reply (trace (on_message w bot message)) =
    Some match usable (google_translate w (content original) target_lang) with
         | Some t => Translation (mention (author original)) target_lang t
         | None =>
             match usable (mymemory_translate w (content original) target_lang) with
             | Some t => Translation (mention (author original)) target_lang t
             | None => TranslationFailed target_lang
             end
         end.
Proof.
  intros Hvalid Hguild Hfetch Htext.
  rewrite (on_message_valid_command w bot message id target_lang Hvalid).
  cbn [trace fst first_reply].
  unfold_try_block. cbn [bind emit lift]. rewrite Hfetch, Hguild. cbn [bind].
  destruct (content original) as [|c s]; [congruence|].
  unfold usable.
  destruct (google_translate w (String c s) target_lang) as [[[|c1 s1]|]|e1];
    destruct (mymemory_translate w (String c s) target_lang) as [[[|c2 s2]|]|e2];
    ask_world w; reflexivity.
Qed.

Lemma X8_reply_follows_the_relay_witness :
  first_reply (trace (on_message Sample.world Sample.bot
                        (Sample.command (Some Sample.home) "/translate fr")))
    = Some (Translation "<@2>" "fr" "bonjour").
Proof.
  refine (X8_reply_follows_the_relay Sample.world Sample.bot
            (Sample.command (Some Sample.home) "/translate fr") 7 "fr"
            Sample.home Sample.original _ _ _ _).
  - split; [split; [reflexivity|apply (bool_decide_unpack _); vm_compute; exact I]|].
    split; [reflexivity|]. split; [reflexivity|].
    split; [|reflexivity]. exists "/translate", "fr". split; reflexivity.
  - reflexivity.
  - reflexivity.
  - discriminate.
Defined.

(** X9: inside the [try] block a refused send is treated like a failed
    fetch.  For a valid command in a guild whose fetch returned, when the
    platform refuses the reply with an exception, the handler sends a second
    reply chosen by the [except] clauses from that exception (the
    could-not-be-found reply for a not-found error, the no-read-permission
    reply for a forbidden one, the internal-error reply otherwise), and
    nothing after it. *)
Theorem X9_refused_reply_goes_to_the_except_clauses (w : World) (bot : Bot)
    (message : Message) (id : Z) (target_lang : string) (g : Guild)
    (fetched : option Message) (r : Reply) (e : PyExc) :
  valid_command bot message id target_lang ->
  guild message = Some g ->
  fetch_message w id = Returned fetched ->
  first_reply (trace (on_message w bot message)) = Some r ->
  send_reply w r = Some e ->
  replies (trace (on_message w bot message)) = [r; error_reply e].
Proof.
  intros Hvalid Hguild Hfetch.
  rewrite (on_message_valid_command w bot message id target_lang Hvalid).
  cbn [trace fst first_reply replies].
  unfold_try_block. cbn [bind emit lift]. rewrite Hfetch, Hguild. cbn [bind].
  destruct fetched as [original|];
    ask_world w; simpl; intros [= <-] Hsend; try congruence;
    rewrite Hsend in *; simplify_eq; reflexivity.
Qed.

Lemma X9_refused_reply_goes_to_the_except_clauses_witness :
  replies (trace (on_message Sample.world_send_fails Sample.bot
                    (Sample.command (Some Sample.home) "/translate fr")))
    = [Translation "<@2>" "fr" "bonjour";
       InternalError (OtherException "400 Bad Request")].
Proof.
  refine (X9_refused_reply_goes_to_the_except_clauses
            Sample.world_send_fails Sample.bot
            (Sample.command (Some Sample.home) "/translate fr") 7 "fr"
            Sample.home (Some Sample.original)
            (Translation "<@2>" "fr" "bonjour")
            (OtherException "400 Bad Request") _ _ _ _ _).
  - split; [split; [reflexivity|apply (bool_decide_unpack _); vm_compute; exact I]|].
    split; [reflexivity|]. split; [reflexivity|].
    split; [|reflexivity]. exists "/translate", "fr". split; reflexivity.
  - reflexivity.
  - reflexivity.
  - reflexivity.
  - reflexivity.
Defined.

(** X10: in a direct message a valid command never gets a translation.
    Whatever the providers would answer, once the referenced message was
    fetched with a text the handler fails on [message.guild.name], prints
    the error and sends the internal-error reply with the text of that
    [AttributeError]; no provider is called. *)
Theorem X10_direct_message_gets_internal_error (w : World) (bot : Bot)
    (message : Message) (id : Z) (target_lang : string) (original : Message) :
  valid_command bot message id target_lang ->
  guild message = None ->
  fetch_message w id = Returned (Some original) ->
  content original <> "" ->
  trace (on_message w bot message) =
    [Print (DebugReceived message);
     FetchMessage id;
     Print (UnexpectedError
              (OtherException "'NoneType' object has no attribute 'name'"));
     SendReply (InternalError
              (OtherException "'NoneType' object has no attribute 'name'"))].
Proof.
  intros Hvalid Hguild Hfetch Htext.
  rewrite (on_message_valid_command w bot message id target_lang Hvalid).
  cbn [trace fst].
  unfold_try_block. cbn [bind emit lift]. rewrite Hfetch, Hguild. cbn [bind].
  destruct (content original) as [|c s]; [congruence|].
  ask_world w; reflexivity.
Qed.

Lemma X10_direct_message_gets_internal_error_witness :
  trace (on_message Sample.world Sample.bot (Sample.command None "/translate de")) =
    [Print (DebugReceived (Sample.command None "/translate de"));
     FetchMessage 7;
     Print (UnexpectedError
              (OtherException "'NoneType' object has no attribute 'name'"));
     SendReply (InternalError
              (OtherException "'NoneType' object has no attribute 'name'"))].
Proof.
  refine (X10_direct_message_gets_internal_error Sample.world Sample.bot
            (Sample.command None "/translate de") 7 "de" Sample.original
            _ _ _ _).
  - split; [split; [reflexivity|exact I]|].
    split; [reflexivity|]. split; [reflexivity|].
    split; [|reflexivity]. exists "/translate", "de". split; reflexivity.
  - reflexivity.
  - reflexivity.
  - discriminate.
Defined.

(** ** Loading the configuration *)

(** X11: start-up constructs the client and runs it with the token exactly
    when DISCORD_TOKEN is set and WHITELISTED_SERVER_IDS is set, not empty,
    and every one of its comma-separated entries, trimmed, is an integer;
    then nothing is printed. *)
Theorem X11_startup_connects_iff (environ : gmap string string) (TOKEN : string) :
  startup environ = [CreateClient; RunClient TOKEN] <->
  environ !! "DISCORD_TOKEN" = Some TOKEN /\
  exists str,
    environ !! "WHITELISTED_SERVER_IDS" = Some str /\
    str <> "" /\
    Forall (fun s => is_Some (PyStr.int (PyStr.strip s))) (PyStr.split "," str).
Proof.
  unfold startup.
  destruct (environ !! "WHITELISTED_SERVER_IDS") as [[|c str]|] eqn:Hlist.
  - split; [discriminate|]. intros (_ & str & [= <-] & Hne & _). congruence.
  - destruct (parse_whitelist (String c str)) as [ids|] eqn:Hparse.
    + destruct (environ !! "DISCORD_TOKEN") as [token|]; split.
      * intros [= <-]. split; [reflexivity|].
        exists (String c str). split; [reflexivity|]. split; [discriminate|].
        unfold parse_whitelist in Hparse. apply fmap_Some in Hparse as (l & Hl & _).
        apply (mapM_is_Some_1 (fun s => PyStr.int (PyStr.strip s))).
        rewrite Hl. eexists; reflexivity.
      * intros ([= <-] & _). reflexivity.
      * discriminate.
      * intros ([=] & _).
    + split; [discriminate|]. intros (_ & str' & [= <-] & _ & Hall).
      exfalso.
      apply (mapM_is_Some_2 (fun s => PyStr.int (PyStr.strip s))) in Hall as [l Hl].
      unfold parse_whitelist in Hparse. rewrite Hl in Hparse. discriminate.
  - split; [discriminate|]. intros (_ & str & [=] & _).
Qed.

Lemma allowlist_members_aux (f : string -> option Z) (tokens : list string)
    (l : list Z) (n : Z) :
  Forall2 (fun s y => f s = Some y) tokens l ->
  n ∈ l <-> exists s, In s tokens /\ f s = Some n.
Proof.
  induction 1 as [|s y tokens l Hsy _ IH].
  - split; [intros Hin%elem_of_nil; destruct Hin|intros (s & [] & _)].
  - rewrite elem_of_cons, IH. split.
    + intros [->|(s' & Hin & Hs')]; [exists s|exists s']; simpl; auto.
    + intros (s' & [<-|Hin] & Hs'); [left; congruence|right; exists s'; auto].
Qed.

(** X12: once the allowlist is loaded, a guild id is in it exactly when one
    of the comma-separated entries of WHITELISTED_SERVER_IDS, trimmed, reads
    as that integer; order, repetitions and the spaces around the entries
    do not matter. *)
Theorem X12_allowlist_members (whitelisted_servers_str : string) (ids : gset Z) (n : Z) :
  parse_whitelist whitelisted_servers_str = Some ids ->
  n ∈ ids <->
  exists s, In s (PyStr.split "," whitelisted_servers_str) /\
            PyStr.int (PyStr.strip s) = Some n.
Proof.
  unfold parse_whitelist. intros (l & Hl & ->)%fmap_Some.
  rewrite elem_of_list_to_set.
  apply allowlist_members_aux, mapM_Some_1, Hl.
Qed.

Lemma X12_allowlist_members_witness :
  456 ∈ ({[ 123; 456 ]} : gset Z) <->
  exists s, In s (PyStr.split "," "123, 456") /\ PyStr.int (PyStr.strip s) = Some 456.
Proof.
  apply (X12_allowlist_members "123, 456" {[ 123; 456 ]} 456).
  vm_compute. reflexivity.
Defined.




Lemma fail_with_injective (err err' : ConfigError) :
  fail_with err = fail_with err' -> err = err'.
Proof. destruct err, err'; intros H; first [reflexivity | discriminate H]. Qed.

(** X14: start-up reports one configuration error only, the first one it
    meets.  The allowlist is examined before the token: the not-found error
    of the allowlist is printed exactly when the variable is unset or empty,
    the must-be-numbers error exactly when it is set, not empty and some
    entry is not an integer, and the token error only when the allowlist
    loads and the token is unset. *)
Theorem X14_first_error_only (environ : gmap string string) (err : ConfigError) :
  startup environ = fail_with err <->
  match err with
  | WhitelistMissing =>
      environ !! "WHITELISTED_SERVER_IDS" = None \/
      environ !! "WHITELISTED_SERVER_IDS" = Some ""
  | WhitelistMalformed =>
      exists str,
        environ !! "WHITELISTED_SERVER_IDS" = Some str /\ str <> "" /\
        parse_whitelist str = None
  | TokenMissing =>
      exists str ids,
        environ !! "WHITELISTED_SERVER_IDS" = Some str /\ str <> "" /\
        parse_whitelist str = Some ids /\
        environ !! "DISCORD_TOKEN" = None
  end.
Proof.
  unfold startup.
  destruct (environ !! "WHITELISTED_SERVER_IDS") as [[|c str]|] eqn:Hlist.
  - split.
    + intros <-%fail_with_injective. right. reflexivity.
    + destruct err; [intros (s & [= <-] & Hne & _); congruence
                    |reflexivity
                    |intros (s & ids & [= <-] & Hne & _); congruence].
  - destruct (parse_whitelist (String c str)) as [ids|] eqn:Hparse.
    + destruct (environ !! "DISCORD_TOKEN") as [token|] eqn:Htoken.
      * split; [destruct err; discriminate|].
        destruct err;
          [intros (s & [= <-] & _ & Hnone); congruence
          |intros [H|H]; discriminate H
          |intros (s & ids' & _ & _ & _ & H); discriminate H].
      * split.
        -- intros <-%fail_with_injective.
           exists (String c str), ids. repeat split; auto; discriminate.
        -- destruct err;
             [intros (s & [= <-] & _ & Hnone); congruence
             |intros [H|H]; discriminate H
             |reflexivity].
    + split.
      * intros <-%fail_with_injective.
        exists (String c str). repeat split; auto; discriminate.
      * destruct err;
          [reflexivity
          |intros [H|H]; discriminate H
          |intros (s & ids & [= <-] & _ & Hsome & _); congruence].
  - split.
    + intros <-%fail_with_injective. left. reflexivity.
    + destruct err; [intros (s & H & _); discriminate H
                    |reflexivity
                    |intros (s & ids & H & _); discriminate H].
Qed.
